(** * HRMS recruitment module: candidate lifecycle and notifications

    A shallow embedding of the recruitment logic (recruitmentModule.js), of
    the id counters and the writer of db.js and of the notifications of
    emailService.js, followed by what these functions do when they are
    called.

    Conventions of the embedding.
    - A JavaScript field that may be missing is an [option]; [None] is
      [undefined] (or [null], where the code does not tell the two apart).
      [positions], where it does, has the three cases.
    - Numbers supplied by callers and only compared ([budget], [positions],
      [rating]) are [number]s: a rational, an infinity or NaN.  Record ids,
      id counters and [applicantCount], on which the program adds, are
      binary64 floats.
    - db.js keeps the store in [db.data] and ends with
      [module.exports = { db, write, read, nextId }].  recruitmentModule.js
      and emailService.js bind the whole of that object,
      [const db = require('./db')]: for them [db.nextId] and [db.write] are
      the functions of db.js, and [db.data] is [undefined].  (seed.js and
      the server bind [const { db, write, nextId } = require('./db')].)
    - The file system and the mail transport are outside the program:
      [writeFileSync] and [sendMail] act on a [World] and return or fail.
    - An object found with [Array.prototype.find] and then mutated is
      addressed by its index in the collection.
    - A function returns or throws, and leaves a state behind in both
      cases; the message of the error thrown is all that is kept of it.
      The message of a TypeError is the one of the V8 engine.
    - Wall-clock timestamps ([createdAt], [updatedAt], ...) are left out
      of the records; the random interview id is an argument. *)

From Stdlib Require Import ZArith QArith Floats Uint63 String Ascii List Lia.
From stdpp Require Import gmap strings list.

Local Open Scope string_scope.
Local Open Scope list_scope.
Local Open Scope Z_scope.

(** ** JavaScript values *)

Module Js.

(** An IEEE number as far as comparisons and truthiness see it. *)
Inductive number : Type :=
| NaN
| NegInfinity
| Finite (q : Q)
| Infinity.

Definition num (z : Z) : number := Finite (inject_Z z).

Definition Qltb (x y : Q) : bool :=
  Qnum x * Z.pos (Qden y) <? Qnum y * Z.pos (Qden x).

(** ToBoolean on a number: only zero and NaN are falsy. *)
Definition truthy_number (n : number) : bool :=
  match n with
  | NaN => false
  | Finite q => negb (Qnum q =? 0)
  | NegInfinity | Infinity => true
  end.

(** [a < b] on numbers; every comparison with NaN is false. *)
Definition lt (a b : number) : bool :=
  match a, b with
  | NaN, _ | _, NaN => false
  | NegInfinity, NegInfinity => false
  | NegInfinity, _ => true
  | _, NegInfinity => false
  | Infinity, _ => false
  | Finite _, Infinity => true
  | Finite x, Finite y => Qltb x y
  end.

(** ToNumber of a possibly missing number: [undefined] becomes NaN. *)
Definition to_number (n : option number) : number := default NaN n.

Definition truthy_num (n : option number) : bool :=
  match n with Some x => truthy_number x | None => false end.

(** A numeric field where [undefined] and [null] behave differently. *)
Inductive numeric : Type :=
| Undefined
| Null
| Num (n : number).

(** ToNumber: [undefined] becomes NaN and [null] becomes 0. *)
Definition number_of (v : numeric) : number :=
  match v with
  | Undefined => NaN
  | Null => num 0
  | Num n => n
  end.

(** A parameter with the default [= 1]: the default is taken for
    [undefined] only. *)
Definition or_one (v : numeric) : numeric :=
  match v with
  | Undefined => Num (num 1)
  | given => given
  end.

(** ToBoolean on a possibly missing string: the empty string is falsy. *)
Definition truthy_str (s : option string) : bool :=
  match s with
  | Some EmptyString | None => false
  | Some _ => true
  end.

(** ToBoolean on a binary64 number. *)
Definition truthy_float (x : float) : bool :=
  negb (PrimFloat.is_zero x || PrimFloat.is_nan x).

(** ToBoolean on a possibly missing id. *)
Definition truthy_id (i : option float) : bool :=
  match i with Some x => truthy_float x | None => false end.

(** [a || 0] on a possibly missing binary64 number. *)
Definition or_zero (a : option float) : float :=
  match a with
  | Some x => if truthy_float x then x else 0%float
  | None => 0%float
  end.

(** [a === b] on ids either of which may be missing. *)
Definition same_id (a b : option float) : bool :=
  match a, b with
  | Some x, Some y => PrimFloat.eqb x y
  | None, None => true
  | _, _ => false
  end.

(** [a || b] on numbers. *)
Definition or_num (a : option number) (b : number) : number :=
  match a with
  | Some x => if truthy_number x then x else b
  | None => b
  end.

(** [Array.prototype.includes] on strings. *)
Definition includes (l : list string) (s : string) : bool :=
  bool_decide (s ∈ l).

(** The message of the TypeError that reading a property of [undefined]
    raises. *)
Definition cannot_read (property : string) : string :=
  "Cannot read properties of undefined (reading '" +:+ property +:+ "')".

End Js.

Import Js.

(** ** The data model *)

Record JobRequirement := mkJobRequirement {
  r_id : float;
  r_title : option string;
  r_department : option string;
  r_budget : option number;
  r_description : option string;
  r_positions : numeric;
  r_status : string;
  r_createdBy : option Z;
  r_approvedBy : option Z;
  r_rejectionReason : option string;
  r_filledPositions : Z
}.

Record JobPosting := mkJobPosting {
  p_id : float;
  p_requirementId : option float;
  p_title : option string;
  p_description : option string;
  p_department : option string;
  p_location : option string;
  p_salaryRange : option string;
  p_status : string;
  p_applicationDeadline : option string;
  p_createdBy : option Z;
  p_applicantCount : option float
}.

Record Interview := mkInterview {
  i_id : string;
  i_date : option string;
  i_interviewer : option string;
  i_rating : number;
  i_feedback : option string
}.

Record Candidate := mkCandidate {
  c_id : float;
  c_jobPostingId : option float;
  c_candidateName : option string;
  c_email : option string;
  c_phone : option string;
  c_resume : option string;
  c_experience : option string;
  c_skills : list (option string);
  c_linkedinProfile : option string;
  c_status : string;
  c_ratings : list number;
  c_notes : list string;
  c_interviews : list Interview;
  c_rejectionReason : option string
}.

Record StatusChangeLog := mkStatusChangeLog {
  l_id : float;
  l_candidateId : float;
  l_oldStatus : string;
  l_newStatus : string
}.

Record EmailLog := mkEmailLog {
  e_id : float;
  e_candidateId : float;
  e_emailType : string;
  e_messageId : option string;
  e_recipientEmail : option string;
  e_status : string;
  e_error : option string
}.

(** The object that db.js keeps in [db.data]: the collections and the
    per-collection id counters. *)
Record Store := mkStore {
  jobRequirements : list JobRequirement;
  jobPostings : list JobPosting;
  candidates : list Candidate;
  statusChangeLogs : list StatusChangeLog;
  emailLogs : list EmailLog;
  _id : gmap string float
}.

Definition set_jobRequirements (l : list JobRequirement) (s : Store) : Store :=
  mkStore l (jobPostings s) (candidates s) (statusChangeLogs s) (emailLogs s) (_id s).
Definition set_jobPostings (l : list JobPosting) (s : Store) : Store :=
  mkStore (jobRequirements s) l (candidates s) (statusChangeLogs s) (emailLogs s) (_id s).
Definition set_candidates (l : list Candidate) (s : Store) : Store :=
  mkStore (jobRequirements s) (jobPostings s) l (statusChangeLogs s) (emailLogs s) (_id s).
Definition set_statusChangeLogs (l : list StatusChangeLog) (s : Store) : Store :=
  mkStore (jobRequirements s) (jobPostings s) (candidates s) l (emailLogs s) (_id s).
Definition set_emailLogs (l : list EmailLog) (s : Store) : Store :=
  mkStore (jobRequirements s) (jobPostings s) (candidates s) (statusChangeLogs s) l (_id s).
Definition set__id (m : gmap string float) (s : Store) : Store :=
  mkStore (jobRequirements s) (jobPostings s) (candidates s) (statusChangeLogs s) (emailLogs s) m.

(** ** Exceptions and state *)

Inductive result (A : Type) : Type :=
| Ok (a : A)
| Thrown (msg : string).
Arguments Ok {A} a.
Arguments Thrown {A} msg.

(** A computation over a state [S] that returns or throws; the state it
    leaves behind is kept in both cases. *)
Definition M (S A : Type) : Type := S → result A * S.

Global Instance M_ret {S} : MRet (M S) := λ A a s, (Ok a, s).
Global Instance M_bind {S} : MBind (M S) := λ A B f m s,
  match m s with
  | (Ok a, s') => f a s'
  | (Thrown e, s') => (Thrown e, s')
  end.

Definition throw {S A} (msg : string) : M S A := λ s, (Thrown msg, s).

Definition try_catch {S A} (body : M S A) (handler : string → M S A) : M S A :=
  λ s, match body s with
       | (Ok a, s') => (Ok a, s')
       | (Thrown e, s') => handler e s'
       end.

(** The [try { ... } catch (error) { throw new Error(prefix + error.message) }]
    wrapper around every exported function. *)
Definition rethrow {S A} (prefix : string) (body : M S A) : M S A :=
  try_catch body (λ e, throw (prefix +:+ e)).

(** ** Input objects *)

Record RequirementData := mkRequirementData {
  rd_title : option string;
  rd_department : option string;
  rd_budget : option number;
  rd_description : option string;
  rd_positions : numeric;
  rd_createdBy : option Z
}.

Record PostingData := mkPostingData {
  pd_requirementId : option float;
  pd_title : option string;
  pd_description : option string;
  pd_location : option string;
  pd_salaryRange : option string;
  pd_applicationDeadline : option string;
  pd_createdBy : option Z
}.

(** [skills] arrives as an array or as anything else. *)
Inductive SkillsInput : Type :=
| SkillsArray (l : list (option string))
| SkillsScalar (s : option string).

Record ApplicationData := mkApplicationData {
  ad_jobPostingId : option float;
  ad_candidateName : option string;
  ad_email : option string;
  ad_phone : option string;
  ad_resume : option string;
  ad_experience : option string;
  ad_skills : SkillsInput;
  ad_linkedinProfile : option string
}.

Record InterviewData := mkInterviewData {
  nd_date : option string;
  nd_interviewer : option string;
  nd_rating : option number;
  nd_feedback : option string
}.

(** ** Field assignments on the objects of the store *)

Definition requirement_approved (approvedBy : option Z) (r : JobRequirement) : JobRequirement :=
  mkJobRequirement (r_id r) (r_title r) (r_department r) (r_budget r) (r_description r)
    (r_positions r) "approved" (r_createdBy r) approvedBy (r_rejectionReason r)
    (r_filledPositions r).

Definition requirement_rejected (reason : option string) (r : JobRequirement) : JobRequirement :=
  mkJobRequirement (r_id r) (r_title r) (r_department r) (r_budget r) (r_description r)
    (r_positions r) "rejected" (r_createdBy r) (r_approvedBy r) reason
    (r_filledPositions r).

Definition posting_set_status (st : string) (p : JobPosting) : JobPosting :=
  mkJobPosting (p_id p) (p_requirementId p) (p_title p) (p_description p) (p_department p)
    (p_location p) (p_salaryRange p) st (p_applicationDeadline p) (p_createdBy p)
    (p_applicantCount p).

Definition posting_set_applicantCount (n : option float) (p : JobPosting) : JobPosting :=
  mkJobPosting (p_id p) (p_requirementId p) (p_title p) (p_description p) (p_department p)
    (p_location p) (p_salaryRange p) (p_status p) (p_applicationDeadline p) (p_createdBy p) n.

Definition candidate_set_status (st : string) (c : Candidate) : Candidate :=
  mkCandidate (c_id c) (c_jobPostingId c) (c_candidateName c) (c_email c) (c_phone c)
    (c_resume c) (c_experience c) (c_skills c) (c_linkedinProfile c) st (c_ratings c)
    (c_notes c) (c_interviews c) (c_rejectionReason c).

Definition candidate_push_note (text : string) (c : Candidate) : Candidate :=
  mkCandidate (c_id c) (c_jobPostingId c) (c_candidateName c) (c_email c) (c_phone c)
    (c_resume c) (c_experience c) (c_skills c) (c_linkedinProfile c) (c_status c)
    (c_ratings c) (c_notes c ++ [text]) (c_interviews c) (c_rejectionReason c).

Definition candidate_set_rejectionReason (r : option string) (c : Candidate) : Candidate :=
  mkCandidate (c_id c) (c_jobPostingId c) (c_candidateName c) (c_email c) (c_phone c)
    (c_resume c) (c_experience c) (c_skills c) (c_linkedinProfile c) (c_status c)
    (c_ratings c) (c_notes c) (c_interviews c) r.

Definition candidate_push_interview (i : Interview) (c : Candidate) : Candidate :=
  mkCandidate (c_id c) (c_jobPostingId c) (c_candidateName c) (c_email c) (c_phone c)
    (c_resume c) (c_experience c) (c_skills c) (c_linkedinProfile c) (c_status c)
    (c_ratings c) (c_notes c) (c_interviews c ++ [i]) (c_rejectionReason c).

Definition normalize_skills (skills : SkillsInput) : list (option string) :=
  match skills with
  | SkillsArray l => l
  | SkillsScalar s => [s]
  end.

Definition validPostingStatuses : list string := ["open"; "closed"; "filled"].

Definition validStatuses : list string :=
  ["applied"; "shortlisted"; "interviewed"; "selected"; "rejected"].

(** What l.429-442 of [updateCandidateStatus] assign to the candidate that
    was found; [notes] is the empty string when the caller gave none. *)
Definition updated_candidate (newStatus notes : string) (candidate : Candidate)
  : Candidate :=
  let candidate := candidate_set_status newStatus candidate in
  let candidate :=
    if truthy_str (Some notes) then candidate_push_note notes candidate
    else candidate in
  if String.eqb newStatus "rejected" && negb (truthy_str (c_rejectionReason candidate))
  then candidate_set_rejectionReason
         (Some (if truthy_str (Some notes) then notes else "No reason provided"))
         candidate
  else candidate.

(** ** Analytics: counting and [toFixed] *)

(** What [Number.prototype.toFixed(2)] prints for a double below 10^21 in
    magnitude: the integer [n] nearest to [100 x] (the larger one at a tie),
    with a point before its last two digits. *)
Module ToFixed.

Definition digit (d : Z) : ascii := ascii_of_nat (48 + Z.to_nat d).

Fixpoint digits_fuel (fuel : nat) (n : Z) (acc : string) : string :=
  match fuel with
  | O => acc
  | S fuel' =>
      let acc' := String (digit (n mod 10)) acc in
      if n / 10 =? 0 then acc' else digits_fuel fuel' (n / 10) acc'
  end.

(** The decimal digits of a natural number. *)
Definition digits (n : Z) : string :=
  digits_fuel (S (Z.to_nat (Z.log2 n))) n EmptyString.

(** [n] hundredths, printed with two decimals. *)
Definition hundredths (n : Z) : string :=
  digits (n / 100) +:+ "." +:+
  String (digit (n / 10 mod 10)) (String (digit (n mod 10)) EmptyString).

(** The nearest integer to [100 * m * 2^e], ties upwards. *)
Definition nearest_hundredth (m : positive) (e : Z) : Z :=
  if 0 <=? e then 100 * Z.pos m * 2 ^ e
  else (200 * Z.pos m + 2 ^ (- e)) / 2 ^ (- e + 1).

Definition toFixed2 (x : float) : string :=
  match Prim2SF x with
  | S754_nan => "NaN"
  | S754_infinity false => "Infinity"
  | S754_infinity true => "-Infinity"
  | S754_zero _ => "0.00"
  | S754_finite false m e => hundredths (nearest_hundredth m e)
  | S754_finite true m e => "-" +:+ hundredths (nearest_hundredth m e)
  end.

End ToFixed.

(** An array length (below 2^32) as a double. *)
Definition float_of_length (n : nat) : float :=
  PrimFloat.of_uint63 (Uint63.of_Z (Z.of_nat n)).

(** [conversionRate] is the number 0 or the string that [toFixed] makes. *)
Inductive Rate : Type :=
| RateNumber (z : Z)
| RateString (s : string).

Record StatusCounts := mkStatusCounts {
  n_total : nat;
  n_by_status : list (string * nat)
}.

Definition count_status {A} (status_of : A → string) (l : list A) (st : string) : nat :=
  length (filter (λ x, status_of x = st) l).

Definition status_counts {A} (status_of : A → string) (l : list A)
    (statuses : list string) : StatusCounts :=
  mkStatusCounts (length l) (map (λ st, (st, count_status status_of l st)) statuses).

Record RecruitmentStats := mkRecruitmentStats {
  st_requirements : StatusCounts;
  st_postings : StatusCounts;
  st_candidates : StatusCounts;
  conversionRate : Rate
}.


(** ** emailService.js: messages and results *)

Record Template := mkTemplate {
  subject : string;
  html : string
}.

Record MailOptions := mkMailOptions {
  mail_from : string;
  mail_to : option string;
  mail_subject : string;
  mail_html : string
}.

Record SendResult := mkSendResult {
  sr_success : bool;
  sr_messageId : string
}.

Record Failure := mkFailure {
  f_candidateId : float;
  f_reason : string
}.

Record BulkResults := mkBulkResults {
  success : list float;
  failed : list Failure
}.

Definition push_success (candidateId : float) (r : BulkResults) : BulkResults :=
  mkBulkResults (success r ++ [candidateId]) (failed r).

Definition push_failed (candidateId : float) (reason : string) (r : BulkResults)
  : BulkResults :=
  mkBulkResults (success r) (failed r ++ [mkFailure candidateId reason]).

(** ** Queries and routes: arguments and results *)

Record RequirementFilters := mkRequirementFilters {
  rf_department : option string;
  rf_status : option string;
  rf_createdBy : option Z
}.

Record PostingFilters := mkPostingFilters {
  pf_status : option string;
  pf_department : option string;
  pf_location : option string
}.

Record CandidateFilters := mkCandidateFilters {
  cf_jobPostingId : option float;
  cf_status : option string;
  cf_email : option string
}.

Record PostingStats := mkPostingStats {
  ps_total : nat;
  ps_applied : nat;
  ps_shortlisted : nat;
  ps_interviewed : nat;
  ps_selected : nat;
  ps_rejected : nat
}.

(** [{ ...posting, stats }] *)
Record PostingWithStats := mkPostingWithStats {
  pws_posting : JobPosting;
  pws_stats : PostingStats
}.

Record ByStatus := mkByStatus {
  by_applied : list Candidate;
  by_shortlisted : list Candidate;
  by_interviewed : list Candidate;
  by_selected : list Candidate;
  by_rejected : list Candidate
}.

Record CandidatesByPosting := mkCandidatesByPosting {
  cbp_total : nat;
  byStatus : ByStatus
}.

(** What a handler sends: [res.status(code).json(payload)], the code being
    200 when the handler sets none. *)
Inductive Response (A : Type) : Type :=
| Respond (code : Z) (payload : A)
| RespondError (code : Z) (error : string).
Arguments Respond {A} code payload.
Arguments RespondError {A} code error.

Record StatusUpdated := mkStatusUpdated {
  su_message : string;
  su_candidate : Candidate
}.

(** The failures of the route carry the message under [error]. *)
Record BulkUpdated := mkBulkUpdated {
  bu_message : string;
  bu_results : BulkResults
}.

(** ** The program *)

Section Program.

(** The file system and the mail transport, and whatever state they have,
    are outside the program.  [writeFileSync store] stands for
    [fs.writeFileSync(file, JSON.stringify(store, null, 2))]: what reaches
    the file, and whether the call throws, is the file system's business.
    [sendMail] accepts a message and returns its id, or fails with an error
    text.  Templates and the process environment are opaque too. *)
Context {World : Type}.
Variable writeFileSync : Store → World → result unit * World.
Variable sendMail : MailOptions → World → result string * World.
Variable env : string → option string.
Variable shortlistedNotification selectedNotification rejectionNotification :
  option string → option string → string → string → Template.

(** The store that db.js holds, and the world around the process. *)
Definition State : Type := Store * World.

(** *** db.js *)

(** [write()]: the whole of [db.data] goes to the file. *)
Definition write : M State unit :=
  λ '(store, w), let '(r, w') := writeFileSync store w in (r, (store, w')).

(** [nextId(table)]: [db.data._id[table] = (db.data._id[table] || 0) + 1]. *)
Definition nextId (table : string) : M State float :=
  λ '(store, w),
    let n := PrimFloat.add (or_zero (_id store !! table)) 1 in
    (Ok n, (set__id (<[table := n]> (_id store)) store, w)).

Definition createDefaultSchema : Store :=
  mkStore [] [] [] [] []
    (list_to_map
       (map (λ k, (k, 0%float))
          ["users"; "employees"; "jobRequirements"; "jobPostings"; "candidates";
           "interviews"; "backgroundVerifications"; "leaveRequests"; "attendance";
           "engagement"; "separations"; "performanceReviews"; "auditLogs"])).

(** *** The [db] of recruitmentModule.js and of emailService.js *)

(** [db.data], where [db] is the object that db.js exports: it has the
    properties [db], [write], [read] and [nextId], and no [data]. *)
Definition db_data (s : State) : option Store := None.

(** [db.data.<property>], read: a TypeError when [db.data] is [undefined]. *)
Definition read_data {A} (property : string) (f : Store → A) : M State A :=
  λ s, match db_data s with
       | Some store => (Ok (f store), s)
       | None => (Thrown (cannot_read property), s)
       end.

(** [db.data.<property>.push(...)]: the collection is read first. *)
Definition update_data (property : string) (f : Store → Store) : M State unit :=
  λ s, match db_data s with
       | Some store => (Ok tt, (f store, s.2))
       | None => (Thrown (cannot_read property), s)
       end.

(** [if (!db.data.<property>) { db.data.<property> = []; }]: the
    collections being lists, only the read is left of it. *)
Definition ensure (property : string) : M State unit :=
  read_data property (λ _, tt).

(** An assignment to a field of an object that was found in the store. *)
Definition assign (f : Store → Store) : M State unit :=
  λ s, (Ok tt, (f s.1, s.2)).

(** *** recruitmentModule.js: job requirements *)

Definition createJobRequirement (d : RequirementData) : M State JobRequirement :=
  rethrow "Failed to create job requirement: " (
    let title := rd_title d in
    let department := rd_department d in
    let budget := rd_budget d in
    let positions := or_one (rd_positions d) in
    if negb (truthy_str title) || negb (truthy_str department) || negb (truthy_num budget)
    then throw "Title, department, and budget are required"
    else if lt (to_number budget) (num 0)
    then throw "Budget must be positive"
    else if lt (number_of positions) (num 1)
    then throw "Positions must be at least 1"
    else
      id ← nextId "jobRequirements";
      let requirement :=
        mkJobRequirement id title department budget (rd_description d) positions
          "pending" (rd_createdBy d) None None 0 in
      ensure "jobRequirements";;
      update_data "jobRequirements"
        (λ s, set_jobRequirements (jobRequirements s ++ [requirement]) s);;
      write;;
      mret requirement).

(** The requirement found and its place in the collection. *)
Definition getJobRequirementById (id : option float) : M State (nat * JobRequirement) :=
  requirements ← read_data "jobRequirements" jobRequirements;
  match list_find (λ r, same_id (Some (r_id r)) id = true) requirements with
  | Some found => mret found
  | None => throw "Job requirement not found"
  end.

Definition approveJobRequirement (requirementId : float) (approvedBy : option Z)
  : M State JobRequirement :=
  rethrow "Failed to approve job requirement: " (
    '(i, requirement) ← getJobRequirementById (Some requirementId);
    let requirement := requirement_approved approvedBy requirement in
    assign (λ s, set_jobRequirements (<[i := requirement]> (jobRequirements s)) s);;
    write;;
    mret requirement).

Definition rejectJobRequirement (requirementId : float) (reason : option string)
  : M State JobRequirement :=
  rethrow "Failed to reject job requirement: " (
    '(i, requirement) ← getJobRequirementById (Some requirementId);
    let requirement := requirement_rejected reason requirement in
    assign (λ s, set_jobRequirements (<[i := requirement]> (jobRequirements s)) s);;
    write;;
    mret requirement).

(** *** Job postings *)

Definition createJobPosting (d : PostingData) : M State JobPosting :=
  rethrow "Failed to create job posting: " (
    let requirementId := pd_requirementId d in
    let title := pd_title d in
    let description := pd_description d in
    let location := pd_location d in
    '(_, requirement) ← getJobRequirementById requirementId;
    if negb (String.eqb (r_status requirement) "approved")
    then throw "Can only create posting from approved requirement"
    else if negb (truthy_str title) || negb (truthy_str description)
            || negb (truthy_str location)
    then throw "Title, description, and location are required"
    else
      id ← nextId "jobPostings";
      let posting :=
        mkJobPosting id requirementId title description (r_department requirement)
          location (pd_salaryRange d) "open" (pd_applicationDeadline d)
          (pd_createdBy d) (Some 0%float) in
      ensure "jobPostings";;
      update_data "jobPostings" (λ s, set_jobPostings (jobPostings s ++ [posting]) s);;
      write;;
      mret posting).

Definition updateJobPostingStatus (postingId : float) (status : string)
  : M State JobPosting :=
  rethrow "Failed to update job posting: " (
    if negb (includes validPostingStatuses status)
    then throw "Invalid status. Must be one of: open, closed, filled"
    else
      postings ← read_data "jobPostings" jobPostings;
      match list_find (λ p, PrimFloat.eqb (p_id p) postingId = true) postings with
      | None => throw "Job posting not found"
      | Some (i, posting) =>
          let posting := posting_set_status status posting in
          assign (λ s, set_jobPostings (<[i := posting]> (jobPostings s)) s);;
          write;;
          mret posting
      end).

(** *** Candidates *)

Definition applyForJob (d : ApplicationData) : M State Candidate :=
  rethrow "Failed to apply for job: " (
    let jobPostingId := ad_jobPostingId d in
    let candidateName := ad_candidateName d in
    let email := ad_email d in
    if negb (truthy_id jobPostingId) || negb (truthy_str candidateName)
       || negb (truthy_str email)
    then throw "Job posting ID, candidate name, and email are required"
    else
      postings ← read_data "jobPostings" jobPostings;
      match list_find (λ p, same_id (Some (p_id p)) jobPostingId = true) postings with
      | None => throw "Job posting not found"
      | Some (i, posting) =>
          existing ← read_data "candidates" candidates;
          match list_find
                  (λ c, same_id (c_jobPostingId c) jobPostingId = true ∧ c_email c = email)
                  existing with
          | Some _ => throw "You have already applied for this position"
          | None =>
              id ← nextId "candidates";
              let candidate :=
                mkCandidate id jobPostingId candidateName email (ad_phone d)
                  (ad_resume d) (ad_experience d) (normalize_skills (ad_skills d))
                  (ad_linkedinProfile d) "applied" [] [] [] None in
              ensure "candidates";;
              update_data "candidates" (λ s, set_candidates (candidates s ++ [candidate]) s);;
              let posting :=
                posting_set_applicantCount
                  (Some (PrimFloat.add (or_zero (p_applicantCount posting)) 1)) posting in
              assign (λ s, set_jobPostings (<[i := posting]> (jobPostings s)) s);;
              write;;
              mret candidate
          end
      end).

(** The candidate found and its place in the collection. *)
Definition getCandidateById (candidateId : float) : M State (nat * Candidate) :=
  all ← read_data "candidates" candidates;
  match list_find (λ c, PrimFloat.eqb (c_id c) candidateId = true) all with
  | Some found => mret found
  | None => throw "Candidate not found"
  end.

Definition logStatusChange (candidateId : float) (oldStatus newStatus : string)
  : M State unit :=
  ensure "statusChangeLogs";;
  id ← nextId "statusChangeLogs";
  update_data "statusChangeLogs" (λ s, set_statusChangeLogs
    (statusChangeLogs s ++ [mkStatusChangeLog id candidateId oldStatus newStatus]) s);;
  write.

(** [notes] is [None] when the caller leaves the argument out. *)
Definition updateCandidateStatus (candidateId : float) (newStatus : string)
    (notes : option string) : M State Candidate :=
  rethrow "Failed to update candidate status: " (
    let notes := default EmptyString notes in
    if negb (includes validStatuses newStatus)
    then throw
      "Invalid status. Must be one of: applied, shortlisted, interviewed, selected, rejected"
    else
      '(i, candidate) ← getCandidateById candidateId;
      let oldStatus := c_status candidate in
      let candidate := updated_candidate newStatus notes candidate in
      assign (λ s, set_candidates (<[i := candidate]> (candidates s)) s);;
      write;;
      logStatusChange candidateId oldStatus newStatus;;
      mret candidate).

(** [uuid] is what [uuidv4()] returns at this call. *)
Definition addInterview (candidateId : float) (d : InterviewData) (uuid : string)
  : M State Candidate :=
  rethrow "Failed to add interview: " (
    let date := nd_date d in
    let interviewer := nd_interviewer d in
    let rating := nd_rating d in
    if negb (truthy_str date) || negb (truthy_str interviewer)
    then throw "Interview date and interviewer are required"
    else if truthy_num rating
            && (lt (to_number rating) (num 1) || lt (num 5) (to_number rating))
    then throw "Rating must be between 1 and 5"
    else
      '(i, candidate) ← getCandidateById candidateId;
      let interview :=
        mkInterview uuid date interviewer (or_num rating (num 0)) (nd_feedback d) in
      let candidate := candidate_push_interview interview candidate in
      let candidate :=
        if String.eqb (c_status candidate) "shortlisted"
        then candidate_set_status "interviewed" candidate
        else candidate in
      assign (λ s, set_candidates (<[i := candidate]> (candidates s)) s);;
      write;;
      mret candidate).


(** *** recruitmentModule.js: the queries *)

Definition getJobRequirements (filters : RequirementFilters)
  : M State (list JobRequirement) :=
  rethrow "Failed to get job requirements: " (
    requirements ← read_data "jobRequirements" jobRequirements;
    let requirements :=
      if truthy_str (rf_department filters)
      then filter (λ r, r_department r = rf_department filters) requirements
      else requirements in
    let requirements :=
      if truthy_str (rf_status filters)
      then filter (λ r, Some (r_status r) = rf_status filters) requirements
      else requirements in
    let requirements :=
      if bool_decide (is_Some (rf_createdBy filters) ∧ rf_createdBy filters ≠ Some 0)
      then filter (λ r, r_createdBy r = rf_createdBy filters) requirements
      else requirements in
    mret requirements).

Definition getJobPostings (filters : PostingFilters) : M State (list JobPosting) :=
  rethrow "Failed to get job postings: " (
    postings ← read_data "jobPostings" jobPostings;
    let postings :=
      if truthy_str (pf_status filters)
      then filter (λ p, Some (p_status p) = pf_status filters) postings
      else postings in
    let postings :=
      if truthy_str (pf_department filters)
      then filter (λ p, p_department p = pf_department filters) postings
      else postings in
    let postings :=
      if truthy_str (pf_location filters)
      then filter (λ p, p_location p = pf_location filters) postings
      else postings in
    mret postings).

(** No [try] around this one: what it throws has no prefix. *)
Definition getJobPostingById (id : option float) : M State PostingWithStats :=
  postings ← read_data "jobPostings" jobPostings;
  match list_find (λ p, same_id (Some (p_id p)) id = true) postings with
  | None => throw "Job posting not found"
  | Some (_, posting) =>
      all ← read_data "candidates" candidates;
      let candidates := filter (λ c, same_id (c_jobPostingId c) id = true) all in
      let stats :=
        mkPostingStats (length candidates)
          (count_status c_status candidates "applied")
          (count_status c_status candidates "shortlisted")
          (count_status c_status candidates "interviewed")
          (count_status c_status candidates "selected")
          (count_status c_status candidates "rejected") in
      mret (mkPostingWithStats posting stats)
  end.

Definition getCandidates (filters : CandidateFilters) : M State (list Candidate) :=
  rethrow "Failed to get candidates: " (
    candidates ← read_data "candidates" candidates;
    let candidates :=
      if truthy_id (cf_jobPostingId filters)
      then filter (λ c, same_id (c_jobPostingId c) (cf_jobPostingId filters) = true)
             candidates
      else candidates in
    let candidates :=
      if truthy_str (cf_status filters)
      then filter (λ c, Some (c_status c) = cf_status filters) candidates
      else candidates in
    let candidates :=
      if truthy_str (cf_email filters)
      then filter (λ c, c_email c = cf_email filters) candidates
      else candidates in
    mret candidates).

Definition getCandidatesByPosting (jobPostingId : float) : M State CandidatesByPosting :=
  rethrow "Failed to get candidates by posting: " (
    candidates ← getCandidates (mkCandidateFilters (Some jobPostingId) None None);
    mret (mkCandidatesByPosting (length candidates)
      (mkByStatus
         (filter (λ c, c_status c = "applied") candidates)
         (filter (λ c, c_status c = "shortlisted") candidates)
         (filter (λ c, c_status c = "interviewed") candidates)
         (filter (λ c, c_status c = "selected") candidates)
         (filter (λ c, c_status c = "rejected") candidates)))).

(** *** Analytics *)

Definition getRecruitmentStats : M State RecruitmentStats :=
  rethrow "Failed to get recruitment stats: " (
    requirements ← read_data "jobRequirements" jobRequirements;
    postings ← read_data "jobPostings" jobPostings;
    all ← read_data "candidates" candidates;
    mret (mkRecruitmentStats
      (status_counts r_status requirements ["pending"; "approved"; "rejected"; "closed"])
      (status_counts p_status postings validPostingStatuses)
      (status_counts c_status all validStatuses)
      (if bool_decide (0 < length all)%nat
       then RateString (ToFixed.toFixed2
              (PrimFloat.mul
                 (PrimFloat.div (float_of_length (count_status c_status all "selected"))
                                (float_of_length (length all)))
                 100%float))
       else RateNumber 0))).

(** *** emailService.js *)

Definition logEmailSent (candidateId : float) (emailType messageId : string)
    (recipientEmail : option string) : M State unit :=
  ensure "emailLogs";;
  id ← nextId "emailLogs";
  update_data "emailLogs" (λ s, set_emailLogs
    (emailLogs s ++
       [mkEmailLog id candidateId emailType (Some messageId) recipientEmail "sent" None]) s);;
  write.

Definition logEmailError (candidateId : float) (emailType errorMessage : string)
  : M State unit :=
  ensure "emailLogs";;
  id ← nextId "emailLogs";
  update_data "emailLogs" (λ s, set_emailLogs
    (emailLogs s ++
       [mkEmailLog id candidateId emailType None None "failed" (Some errorMessage)]) s);;
  write.

(** [process.env.X || fallback] *)
Definition env_or (name fallback : string) : string :=
  if truthy_str (env name) then default fallback (env name) else fallback.

(** [await transporter.sendMail(mailOptions)], of which the message id is
    kept. *)
Definition transport (options : MailOptions) : M State string :=
  λ '(store, w), let '(r, w') := sendMail options w in (r, (store, w')).

(** The body shared by the three notifications: render, send, log. *)
Definition notify (emailType : string)
    (render : option string → option string → string → string → Template)
    (candidate : Candidate) (posting : JobPosting) (text : option string)
  : M State SendResult :=
  try_catch (
    let template :=
      render (c_candidateName candidate) (p_title posting)
        (env_or "COMPANY_NAME" "HRMS Company") (default EmptyString text) in
    let mailOptions :=
      mkMailOptions (env_or "EMAIL_USER" "noreply@hrms.com") (c_email candidate)
        (subject template) (html template) in
    messageId ← transport mailOptions;
    logEmailSent (c_id candidate) emailType messageId (c_email candidate);;
    mret (mkSendResult true messageId))
  (λ error,
    logEmailError (c_id candidate) emailType error;;
    throw error).

Definition sendShortlistedNotification (candidate : Candidate) (posting : JobPosting)
    (nextSteps : option string) : M State SendResult :=
  notify "shortlistedNotification" shortlistedNotification candidate posting nextSteps.

Definition sendSelectedNotification (candidate : Candidate) (posting : JobPosting)
    (nextSteps : option string) : M State SendResult :=
  notify "selectedNotification" selectedNotification candidate posting nextSteps.

Definition sendRejectionNotification (candidate : Candidate) (posting : JobPosting)
    (reason : option string) : M State SendResult :=
  notify "rejectionNotification" rejectionNotification candidate posting reason.

(** [db.data.jobPostings?.find(p => p.id === candidate.jobPostingId)]:
    with no candidate, the callback throws on the first posting it is
    given, and is never called on an empty collection. *)
Definition find_posting_of (candidate : option Candidate) (postings : list JobPosting)
  : M State (option JobPosting) :=
  match candidate with
  | Some c =>
      mret (snd <$> list_find (λ p, same_id (Some (p_id p)) (c_jobPostingId c) = true)
                      postings)
  | None =>
      match postings with
      | [] => mret None
      | _ :: _ => throw (cannot_read "jobPostingId")
      end
  end.

(** One turn of the loop over [candidateIds]. *)
Definition bulk_step (newStatus : string) (results : BulkResults) (candidateId : float)
  : M State BulkResults :=
  try_catch (
    all ← read_data "candidates" candidates;
    let candidate :=
      snd <$> list_find (λ c, PrimFloat.eqb (c_id c) candidateId = true) all in
    postings ← read_data "jobPostings" jobPostings;
    posting ← find_posting_of candidate postings;
    match candidate, posting with
    | Some candidate, Some posting =>
        if String.eqb newStatus "shortlisted" then
          sendShortlistedNotification candidate posting None;;
          mret (push_success candidateId results)
        else if String.eqb newStatus "selected" then
          sendSelectedNotification candidate posting None;;
          mret (push_success candidateId results)
        else if String.eqb newStatus "rejected" then
          sendRejectionNotification candidate posting None;;
          mret (push_success candidateId results)
        else
          mret (push_failed candidateId ("Unsupported status: " +:+ newStatus) results)
    | _, _ => mret (push_failed candidateId "Candidate or posting not found" results)
    end)
  (λ error, mret (push_failed candidateId error results)).

Fixpoint bulk_loop (newStatus : string) (candidateIds : list float)
    (results : BulkResults) : M State BulkResults :=
  match candidateIds with
  | [] => mret results
  | candidateId :: rest =>
      results ← bulk_step newStatus results candidateId;
      bulk_loop newStatus rest results
  end.

Definition sendBulkStatusUpdate (candidateIds : list float) (newStatus : string)
  : M State BulkResults :=
  rethrow "Bulk email send failed: "
    (bulk_loop newStatus candidateIds (mkBulkResults [] [])).

(** [(db.data.emailLogs || []).filter(log => log.candidateId === candidateId)] *)
Definition getEmailLogs (candidateId : float) : M State (list EmailLog) :=
  logs ← read_data "emailLogs" emailLogs;
  mret (filter (λ log, PrimFloat.eqb (e_candidateId log) candidateId = true) logs).

(** *** recruitmentRoutes.js *)

(** A handler catches whatever its body throws and answers with [code]. *)
Definition handle {A} (code : Z) (body : M State (Response A)) : M State (Response A) :=
  try_catch body (λ error, mret (RespondError code error)).

(** [try { ... } catch (emailError) { console.error(...) }] *)
Definition swallow {A} (body : M State A) : M State unit :=
  try_catch (body;; mret tt) (λ _, mret tt).

(** PUT /candidates/:id/status; [id] is [parseInt(req.params.id)], [status]
    and [notes] come from the body. *)
Definition putCandidateStatus (id : float) (status : string) (notes : option string)
  : M State (Response StatusUpdated) :=
  handle 400 (
    candidate ← updateCandidateStatus id status notes;
    found ← getJobPostingById (c_jobPostingId candidate);
    let posting := pws_posting found in
    swallow (
      if String.eqb status "shortlisted" then
        sendShortlistedNotification candidate posting notes;; mret tt
      else if String.eqb status "selected" then
        sendSelectedNotification candidate posting notes;; mret tt
      else if String.eqb status "rejected" then
        sendRejectionNotification candidate posting notes;; mret tt
      else mret tt);;
    mret (Respond 200
      (mkStatusUpdated ("Candidate status updated to " +:+ status) candidate))).

(** The loop of POST /bulk-update over [candidateIds]. *)
Fixpoint bulk_update_loop (status : string) (candidateIds : list float)
    (results : BulkResults) : M State BulkResults :=
  match candidateIds with
  | [] => mret results
  | candidateId :: rest =>
      results ← try_catch
        (updateCandidateStatus candidateId status None;;
         mret (push_success candidateId results))
        (λ error, mret (push_failed candidateId error results));
      bulk_update_loop status rest results
  end.

(** POST /bulk-update; [candidateIds] is [None] when it is not an array. *)
Definition postBulkUpdate (candidateIds : option (list float)) (status : string)
  : M State (Response BulkUpdated) :=
  handle 400 (
    match candidateIds with
    | None | Some [] => mret (RespondError 400 "Candidate IDs array is required")
    | Some candidateIds =>
        results ← bulk_update_loop status candidateIds (mkBulkResults [] []);
        swallow (sendBulkStatusUpdate (success results) status);;
        mret (Respond 200 (mkBulkUpdated "Bulk update completed" results))
    end).

End Program.
(** * Specification vocabulary *)

(** ** applyForJob *)

(** The presence check that [applyForJob] makes first. *)
Definition apply_required (a : ApplicationData) : bool :=
  truthy_id (ad_jobPostingId a) && truthy_str (ad_candidateName a)
  && truthy_str (ad_email a).

(** A candidate of the store already holds this posting and this email. *)
Definition already_applied (a : ApplicationData) (s : Store) : Prop :=
  ∃ c, c ∈ candidates s ∧
       same_id (c_jobPostingId c) (ad_jobPostingId a) = true ∧ c_email c = ad_email a.



(** ** addInterview *)

(** The rating check of [addInterview] lets this rating through. *)
Definition rating_accepted (rating : option number) : bool :=
  negb (truthy_num rating
        && (lt (to_number rating) (num 1) || lt (num 5) (to_number rating))).

(** Date and interviewer are both present. *)
Definition interview_required (nd : InterviewData) : bool :=
  truthy_str (nd_date nd) && truthy_str (nd_interviewer nd).

(** ** createJobRequirement *)

(** The three errors that the checks of [createJobRequirement] raise. *)
Definition requirement_errors : list string :=
  ["Title, department, and budget are required"; "Budget must be positive";
   "Positions must be at least 1"].

(** A budget that passes both budget checks: a number above zero. *)
Definition budget_positive (budget : option number) : Prop :=
  match budget with
  | Some (Finite q) => (0 < q)%Q
  | Some Infinity => True
  | Some NaN | Some NegInfinity | None => False
  end.

(** A [positions] that passes its check: left out (then 1), or a number
    that is not below 1; [null] counts as 0 and does not pass. *)
Definition positions_at_least_one (positions : numeric) : Prop :=
  match positions with
  | Num (Finite q) => (1 <= q)%Q
  | Num NegInfinity | Null => False
  | Num NaN | Num Infinity | Undefined => True
  end.

(** The inputs that pass the checks of [createJobRequirement]. *)
Definition requirement_valid (rd : RequirementData) : Prop :=
  truthy_str (rd_title rd) = true ∧ truthy_str (rd_department rd) = true ∧
  budget_positive (rd_budget rd) ∧ positions_at_least_one (rd_positions rd).

(** ** sendBulkStatusUpdate *)

(** Every id of the batch reported as failed, with one reason. *)
Definition all_failed (candidateIds : list float) (reason : string) : BulkResults :=
  mkBulkResults [] ((λ candidateId, mkFailure candidateId reason) <$> candidateIds).

(** ** What a call leaves of the store *)

(** The five collections of two stores are the same. *)
Definition same_collections (s s' : Store) : Prop :=
  jobRequirements s' = jobRequirements s ∧ jobPostings s' = jobPostings s ∧
  candidates s' = candidates s ∧ statusChangeLogs s' = statusChangeLogs s ∧
  emailLogs s' = emailLogs s.

(** The counters of all tables but one are the same. *)
Definition same_counters_but (table : string) (s s' : Store) : Prop :=
  ∀ other, other ≠ table → _id s' !! other = _id s !! other.

Section Steps.

Context {World : Type}.
Variable writeFileSync : Store → World → result unit * World.

(** One call of an operation of the recruitment module, whatever its
    arguments and whether it returns or throws. *)
Inductive step : Store * World → Store * World → Prop :=
| step_createJobRequirement rd st r st' :
    createJobRequirement writeFileSync rd st = (r, st') → step st st'
| step_approveJobRequirement id by_ st r st' :
    approveJobRequirement writeFileSync id by_ st = (r, st') → step st st'
| step_rejectJobRequirement id reason st r st' :
    rejectJobRequirement writeFileSync id reason st = (r, st') → step st st'
| step_createJobPosting pd st r st' :
    createJobPosting writeFileSync pd st = (r, st') → step st st'
| step_updateJobPostingStatus id status st r st' :
    updateJobPostingStatus writeFileSync id status st = (r, st') → step st st'
| step_applyForJob a st r st' :
    applyForJob writeFileSync a st = (r, st') → step st st'
| step_updateCandidateStatus id status notes st r st' :
    updateCandidateStatus writeFileSync id status notes st = (r, st') → step st st'
| step_addInterview id nd uuid st r st' :
    addInterview writeFileSync id nd uuid st = (r, st') → step st st'
| step_getRecruitmentStats st r st' :
    getRecruitmentStats st = (r, st') → step st st'.

(** Any number of calls, one after the other. *)
Inductive steps : Store * World → Store * World → Prop :=
| steps_none st : steps st st
| steps_more st st1 st2 : steps st st1 → step st1 st2 → steps st st2.

End Steps.

(** ** Notifications *)

(** The message that a notification hands to the transport. *)
Definition notification_mail (env : string → option string)
    (render : option string → option string → string → string → Template)
    (c : Candidate) (p : JobPosting) (text : option string) : MailOptions :=
  let template :=
    render (c_candidateName c) (p_title p) (env_or env "COMPANY_NAME" "HRMS Company")
      (default EmptyString text) in
  mkMailOptions (env_or env "EMAIL_USER" "noreply@hrms.com") (c_email c)
    (subject template) (html template).

(** ** Sample data *)

Module Sample.

(** A file system that takes every write, a transport that accepts every
    message, no environment variables, and one template for everything. *)
Definition writeFileSync : Store → unit → result unit * unit := λ _ w, (Ok tt, w).
Definition sendMail : MailOptions → unit → result string * unit :=
  λ _ w, (Ok "message-1", w).
Definition env : string → option string := λ _, None.
Definition template : option string → option string → string → string → Template :=
  λ _ _ _ _, mkTemplate "subject" "body".

Definition requirement : RequirementData :=
  mkRequirementData (Some "Backend Engineer") (Some "Eng") (Some (num 100000)) None
    (Num (num 2)) (Some 1).

Definition posting : PostingData :=
  mkPostingData (Some 1%float) (Some "Backend Engineer") (Some "APIs and services")
    (Some "Remote") None None (Some 1).

Definition application (email : string) : ApplicationData :=
  mkApplicationData (Some 1%float) (Some "Candidate A") (Some email) None None None
    (SkillsScalar (Some "go")) None.

Definition interview (rating : option number) : InterviewData :=
  mkInterviewData (Some "2024-05-01") (Some "Interviewer B") rating None.

(** Records as the server's own routes or seed.js leave them in the store. *)
Definition stored_requirement : JobRequirement :=
  mkJobRequirement 1 (Some "Backend Engineer") (Some "Eng") (Some (num 100000)) None
    (Num (num 2)) "approved" (Some 1) (Some 7) None 0.

Definition stored_posting (applicantCount : float) : JobPosting :=
  mkJobPosting 1 (Some 1%float) (Some "Backend Engineer") (Some "APIs and services")
    (Some "Eng") (Some "Remote") None "open" None (Some 1) (Some applicantCount).

Definition stored_candidate (id : float) (email status : string)
    (rejectionReason : option string) : Candidate :=
  mkCandidate id (Some 1%float) (Some "Candidate A") (Some email) None None None
    [Some "go"] None status [] [] [] rejectionReason.

Definition counters (requirements postings candidates : float) : gmap string float :=
  <["jobRequirements" := requirements]>
    (<["jobPostings" := postings]> (<["candidates" := candidates]> ∅)).

(** An approved requirement and an open posting made from it. *)
Definition opened : Store :=
  mkStore [stored_requirement] [stored_posting 0] [] [] [] (counters 1 1 0).

(** The same with one application on record. *)
Definition applied : Store :=
  mkStore [stored_requirement] [stored_posting 1]
    [stored_candidate 1 "a@x.com" "applied" None] [] [] (counters 1 1 1).

(** The candidate shortlisted. *)
Definition shortlisted : Store :=
  mkStore [stored_requirement] [stored_posting 1]
    [stored_candidate 1 "a@x.com" "shortlisted" None] [] [] (counters 1 1 1).

(** The candidate rejected, with a reason on record. *)
Definition rejected : Store :=
  mkStore [stored_requirement] [stored_posting 1]
    [stored_candidate 1 "a@x.com" "rejected" (Some "no fit")] [] [] (counters 1 1 1).

(** Two candidates, one of them selected. *)
Definition one_selected : Store :=
  mkStore [stored_requirement] [stored_posting 2]
    [stored_candidate 1 "a@x.com" "applied" None;
     stored_candidate 2 "b@x.com" "selected" None] [] [] (counters 1 1 2).

End Sample.
(** * What the functions do when they are called *)

Ltac run_M :=
  unfold rethrow, try_catch, throw, read_data, update_data, ensure, assign, db_data,
    mbind, M_bind, mret, M_ret in *; simpl in *.

Section Calls.

Context {World : Type}.
Variable writeFileSync : Store → World → result unit * World.
Variable sendMail : MailOptions → World → result string * World.
Variable env : string → option string.
Variable t1 t2 t3 : option string → option string → string → string → Template.

(** ** The lookups *)

Lemma getJobRequirementById_throws (id : option float) (s : Store) (w : World) :
  getJobRequirementById id (s, w) = (Thrown (cannot_read "jobRequirements"), (s, w)).
Proof. reflexivity. Qed.

Lemma getCandidateById_throws (id : float) (s : Store) (w : World) :
  getCandidateById id (s, w) = (Thrown (cannot_read "candidates"), (s, w)).
Proof. reflexivity. Qed.

(** ** applyForJob *)

Lemma applyForJob_required (a : ApplicationData) (s : Store) (w : World) :
  apply_required a = false →
  applyForJob writeFileSync a (s, w) =
    (Thrown "Failed to apply for job: Job posting ID, candidate name, and email are required",
     (s, w)).
Proof.
  unfold apply_required, applyForJob. intros H. run_M.
  destruct (truthy_id _), (truthy_str (ad_candidateName a)), (truthy_str (ad_email a));
    simpl in *; try discriminate; reflexivity.
Qed.

Lemma applyForJob_unread (a : ApplicationData) (s : Store) (w : World) :
  apply_required a = true →
  applyForJob writeFileSync a (s, w) =
    (Thrown "Failed to apply for job: Cannot read properties of undefined (reading 'jobPostings')",
     (s, w)).
Proof.
  unfold apply_required, applyForJob. intros H. run_M.
  apply andb_true_iff in H as [H H3]. apply andb_true_iff in H as [H1 H2].
  rewrite H1, H2, H3. reflexivity.
Qed.

Lemma applyForJob_throws (a : ApplicationData) (s : Store) (w : World) :
  ∃ msg, applyForJob writeFileSync a (s, w) = (Thrown msg, (s, w)).
Proof.
  destruct (apply_required a) eqn:H;
    eauto using applyForJob_required, applyForJob_unread.
Qed.

(** C1: an application for a posting and an email that a candidate of the
    store already holds is not refused as a duplicate.  Whenever its three
    required fields are present, whatever the store holds, [applyForJob]
    throws the TypeError of reading [jobPostings] of [db.data], which is
    [undefined] in recruitmentModule.js, and the state is left as it was. *)
Theorem applyForJob_duplicate_unreported (a : ApplicationData) (s : Store) (w : World) :
  apply_required a = true →
  applyForJob writeFileSync a (s, w) =
    (Thrown "Failed to apply for job: Cannot read properties of undefined (reading 'jobPostings')",
     (s, w)).
Proof. apply applyForJob_unread. Qed.

(** C10: whenever [applyForJob] throws, the state after the call, that is
    every collection, every id counter and the world with its file, is the
    state before it. *)
Theorem applyForJob_atomic (a : ApplicationData) (s : Store) (w : World)
    (msg : string) (after : State) :
  applyForJob writeFileSync a (s, w) = (Thrown msg, after) → after = (s, w).
Proof.
  intros H. destruct (applyForJob_throws a s w) as [msg' E].
  rewrite E in H. injection H as _ <-. reflexivity.
Qed.




(** ** addInterview *)

Lemma addInterview_unread (id : float) (nd : InterviewData) (uuid : string)
    (s : Store) (w : World) :
  interview_required nd = true → rating_accepted (nd_rating nd) = true →
  addInterview writeFileSync id nd uuid (s, w) =
    (Thrown "Failed to add interview: Cannot read properties of undefined (reading 'candidates')",
     (s, w)).
Proof.
  unfold interview_required, rating_accepted, addInterview, getCandidateById.
  intros H Hr. run_M. apply andb_true_iff in H as [H1 H2].
  apply negb_true_iff in Hr. rewrite H1, H2. simpl. rewrite Hr. reflexivity.
Qed.

(** C3: an interview is never appended and no status is ever advanced.  A
    call of [addInterview] with a date, an interviewer and a rating that
    passes the rating check throws the TypeError of reading [candidates] of
    [db.data], which is [undefined] in recruitmentModule.js, whatever the
    status of the candidate, and the state is left as it was. *)
Theorem addInterview_never_appends (id : float) (nd : InterviewData) (uuid : string)
    (s : Store) (w : World) :
  interview_required nd = true → rating_accepted (nd_rating nd) = true →
  addInterview writeFileSync id nd uuid (s, w) =
    (Thrown "Failed to add interview: Cannot read properties of undefined (reading 'candidates')",
     (s, w)).
Proof. apply addInterview_unread. Qed.

(** C6: with a date and an interviewer, the explicit rating 6 is refused by
    the rating check; the explicit rating 0 is not, since the check is
    skipped for a falsy rating, and the call goes on to throw the TypeError
    of reading [candidates] of [db.data]; and with the rating left out the
    call throws that TypeError too instead of storing an interview with
    rating 0. *)
Theorem addInterview_explicit_zero_rating (id : float) (uuid : string)
    (s : Store) (w : World) :
  addInterview writeFileSync id (Sample.interview (Some (num 6))) uuid (s, w) =
    (Thrown "Failed to add interview: Rating must be between 1 and 5", (s, w)) ∧
  addInterview writeFileSync id (Sample.interview (Some (num 0))) uuid (s, w) =
    (Thrown "Failed to add interview: Cannot read properties of undefined (reading 'candidates')",
     (s, w)) ∧
  addInterview writeFileSync id (Sample.interview None) uuid (s, w) =
    (Thrown "Failed to add interview: Cannot read properties of undefined (reading 'candidates')",
     (s, w)).
Proof. repeat split. Qed.

(** ** createJobPosting *)

(** C5: [createJobPosting] never returns.  Whatever the posting data and
    whatever requirement the store holds, approved or not, the call throws
    the TypeError of reading [jobRequirements] of [db.data], which is
    [undefined] in recruitmentModule.js, before it looks at the status of
    any requirement, and the state is left as it was. *)
Theorem createJobPosting_never_returns (pd : PostingData) (s : Store) (w : World) :
  createJobPosting writeFileSync pd (s, w) =
    (Thrown "Failed to create job posting: Cannot read properties of undefined (reading 'jobRequirements')",
     (s, w)).
Proof. reflexivity. Qed.

(** ** getRecruitmentStats *)

(** C9: [getRecruitmentStats] reports no conversion rate.  On every store,
    with candidates or without, it throws the TypeError of reading
    [jobRequirements] of [db.data], which is [undefined] in
    recruitmentModule.js, and the state is left as it was. *)
Theorem getRecruitmentStats_never_returns (s : Store) (w : World) :
  getRecruitmentStats (s, w) =
    (Thrown "Failed to get recruitment stats: Cannot read properties of undefined (reading 'jobRequirements')",
     (s, w)).
Proof. reflexivity. Qed.

(** ** createJobRequirement *)

Lemma budget_checks (budget : option number) :
  truthy_num budget && negb (lt (to_number budget) (num 0)) = true ↔
  budget_positive budget.
Proof.
  destruct budget as [[| |q|]|]; simpl; try (split; [discriminate | tauto]);
    try tauto.
  unfold Qltb, Qlt. simpl.
  rewrite andb_true_iff, !negb_true_iff, Z.eqb_neq, Z.ltb_ge. lia.
Qed.

Lemma positions_check (positions : numeric) :
  lt (number_of (or_one positions)) (num 1) = false ↔
  positions_at_least_one positions.
Proof.
  destruct positions as [| |[| |q|]]; simpl; try (split; [discriminate | tauto]);
    try tauto.
  unfold Qltb, Qle. simpl. rewrite Z.ltb_ge. lia.
Qed.

Lemma requirement_valid_dec (rd : RequirementData) :
  requirement_valid rd ∨ ¬ requirement_valid rd.
Proof.
  unfold requirement_valid.
  rewrite <- budget_checks, <- positions_check.
  destruct (truthy_str (rd_title rd)), (truthy_str (rd_department rd)),
    (truthy_num (rd_budget rd) && negb (lt (to_number (rd_budget rd)) (num 0))),
    (lt (number_of (or_one (rd_positions rd))) (num 1));
    try (left; tauto); right; intros (? & ? & ? & ?); discriminate.
Qed.

(** On an input that passes the checks the id counter is advanced, and then
    the guard on [db.data.jobRequirements] throws. *)
Lemma createJobRequirement_valid (rd : RequirementData) (s : Store) (w : World) :
  requirement_valid rd →
  createJobRequirement writeFileSync rd (s, w) =
    (Thrown ("Failed to create job requirement: " +:+ cannot_read "jobRequirements"),
     (set__id (<["jobRequirements" :=
                   PrimFloat.add (or_zero (_id s !! "jobRequirements")) 1]> (_id s)) s,
      w)).
Proof.
  intros (Ht & Hd & Hb & Hp). apply budget_checks in Hb. apply positions_check in Hp.
  apply andb_true_iff in Hb as [Hb1 Hb2]. apply negb_true_iff in Hb2.
  unfold createJobRequirement, nextId. run_M. rewrite Ht, Hd, Hb1. simpl.
  rewrite Hb2, Hp. reflexivity.
Qed.

Lemma createJobRequirement_invalid (rd : RequirementData) (s : Store) (w : World) :
  ¬ requirement_valid rd →
  ∃ msg, msg ∈ requirement_errors ∧
    createJobRequirement writeFileSync rd (s, w) =
      (Thrown ("Failed to create job requirement: " +:+ msg), (s, w)).
Proof.
  intros Hinv. unfold createJobRequirement, requirement_errors. run_M.
  destruct (truthy_str (rd_title rd)) eqn:Ht; simpl;
    [|eexists; split; [|reflexivity]; repeat constructor].
  destruct (truthy_str (rd_department rd)) eqn:Hd; simpl;
    [|eexists; split; [|reflexivity]; repeat constructor].
  destruct (truthy_num (rd_budget rd)) eqn:Hb1; simpl;
    [|eexists; split; [|reflexivity]; repeat constructor].
  destruct (lt (to_number (rd_budget rd)) (num 0)) eqn:Hb2; simpl;
    [eexists; split; [|reflexivity]; repeat constructor|].
  destruct (lt (number_of (or_one (rd_positions rd))) (num 1)) eqn:Hp; simpl;
    [eexists; split; [|reflexivity]; repeat constructor|].
  exfalso. apply Hinv. repeat split; try assumption.
  - apply budget_checks. rewrite Hb1, Hb2. reflexivity.
  - apply positions_check. assumption.
Qed.

(** C7, as the code has it: [createJobRequirement] throws one of the three
    errors of its checks, leaving the state as it was, exactly when the
    title or the department is missing or empty, the budget is missing,
    NaN, zero or negative, or [positions] is below 1, [null] counting
    as 0. *)
Theorem createJobRequirement_checks (rd : RequirementData) (s : Store) (w : World) :
  (∃ msg, msg ∈ requirement_errors ∧
     createJobRequirement writeFileSync rd (s, w) =
       (Thrown ("Failed to create job requirement: " +:+ msg), (s, w)))
  ↔ ¬ requirement_valid rd.
Proof.
  split; [|apply createJobRequirement_invalid].
  intros (msg & Hmsg & H) Hv. rewrite (createJobRequirement_valid rd s w Hv) in H.
  injection H as H _. unfold requirement_errors in Hmsg.
  repeat (apply elem_of_cons in Hmsg as [->|Hmsg]); try discriminate.
  apply elem_of_nil in Hmsg. exact Hmsg.
Qed.

(** ** updateCandidateStatus *)

Lemma updateCandidateStatus_throws (id : float) (st : string) (notes : option string)
    (s : Store) (w : World) :
  ∃ msg, updateCandidateStatus writeFileSync id st notes (s, w) = (Thrown msg, (s, w)).
Proof.
  unfold updateCandidateStatus, getCandidateById. run_M.
  destruct (includes validStatuses st); simpl; eauto.
Qed.

Lemma updated_candidate_reason (st notes : string) (c : Candidate) :
  truthy_str (c_rejectionReason c) = true →
  c_rejectionReason (updated_candidate st notes c) = c_rejectionReason c.
Proof.
  unfold updated_candidate. intros H.
  destruct (truthy_str (Some notes)); simpl; rewrite H, andb_false_r; reflexivity.
Qed.

(** C4, as the code has it: a reason on record is never replaced.  No call
    of [updateCandidateStatus] changes any candidate of the store; and the
    assignments that the function makes to a candidate it has found leave a
    non-empty [rejectionReason] as it is, whatever the new status and
    whatever notes are supplied. *)
Theorem rejectionReason_kept (id : float) (st : string) (notes : option string)
    (s : Store) (w : World) :
  candidates (updateCandidateStatus writeFileSync id st notes (s, w)).2.1 = candidates s ∧
  ∀ c text, truthy_str (c_rejectionReason c) = true →
            c_rejectionReason (updated_candidate st text c) = c_rejectionReason c.
Proof.
  split.
  - destruct (updateCandidateStatus_throws id st notes s w) as [msg E]. rewrite E.
    reflexivity.
  - intros c text. apply updated_candidate_reason.
Qed.

(** ** sendBulkStatusUpdate *)

Lemma bulk_step_unread (st : string) (results : BulkResults) (id : float)
    (s : Store) (w : World) :
  bulk_step writeFileSync sendMail env t1 t2 t3 st results id (s, w) =
    (Ok (push_failed id (cannot_read "candidates") results), (s, w)).
Proof. reflexivity. Qed.

Lemma bulk_loop_unread (st : string) (ids : list float) :
  ∀ results s w,
    bulk_loop writeFileSync sendMail env t1 t2 t3 st ids results (s, w) =
      (Ok (mkBulkResults (success results)
             (failed results ++
              ((λ id, mkFailure id (cannot_read "candidates")) <$> ids))),
       (s, w)).
Proof.
  induction ids as [|id ids IH]; intros results s w; simpl.
  - rewrite app_nil_r. destruct results. reflexivity.
  - unfold mbind, M_bind. rewrite bulk_step_unread, IH. simpl.
    rewrite <- app_assoc. reflexivity.
Qed.

(** C8: the batch is not split into the items that fail and the items
    that are processed.  Whatever the ids, the status and the store,
    [sendBulkStatusUpdate] returns with no id under [success] and every id
    under [failed], each with the message of the TypeError of reading
    [candidates] of [db.data], which is [undefined] in emailService.js; no
    message is handed to the transport and the state is left as it was. *)
Theorem sendBulkStatusUpdate_all_fail (ids : list float) (st : string)
    (s : Store) (w : World) :
  sendBulkStatusUpdate writeFileSync sendMail env t1 t2 t3 ids st (s, w) =
    (Ok (all_failed ids "Cannot read properties of undefined (reading 'candidates')"),
     (s, w)).
Proof.
  unfold sendBulkStatusUpdate, rethrow, try_catch. rewrite bulk_loop_unread. reflexivity.
Qed.

End Calls.

(** ** The calls on sample data *)

Lemma applyForJob_duplicate_unreported_witness :
  already_applied (Sample.application "a@x.com") Sample.applied ∧
  applyForJob Sample.writeFileSync (Sample.application "a@x.com") (Sample.applied, tt) =
    (Thrown "Failed to apply for job: Cannot read properties of undefined (reading 'jobPostings')",
     (Sample.applied, tt)).
Proof.
  split.
  - exists (Sample.stored_candidate 1 "a@x.com" "applied" None).
    split; [apply list_elem_of_here | split; reflexivity].
  - apply (applyForJob_duplicate_unreported Sample.writeFileSync
             (Sample.application "a@x.com") Sample.applied tt).
    reflexivity.
Defined.

Lemma applyForJob_atomic_witness :
  (applyForJob Sample.writeFileSync (Sample.application "a@x.com") (Sample.applied, tt)).2 =
  (Sample.applied, tt).
Proof.
  apply (applyForJob_atomic Sample.writeFileSync (Sample.application "a@x.com")
           Sample.applied tt
           "Failed to apply for job: Cannot read properties of undefined (reading 'jobPostings')").
  reflexivity.
Defined.

Lemma addInterview_never_appends_witness :
  Sample.stored_candidate 1 "a@x.com" "shortlisted" None ∈ candidates Sample.shortlisted ∧
  addInterview Sample.writeFileSync 1 (Sample.interview None) "6f1c" (Sample.shortlisted, tt) =
    (Thrown "Failed to add interview: Cannot read properties of undefined (reading 'candidates')",
     (Sample.shortlisted, tt)).
Proof.
  split; [apply list_elem_of_here|].
  apply (addInterview_never_appends Sample.writeFileSync 1 (Sample.interview None) "6f1c"
           Sample.shortlisted tt); reflexivity.
Defined.

(** The claim as stated fails at budget 0: title, department and budget are
    all supplied, the budget is not negative and positions is 2, yet the
    call throws the error of the presence check. *)
Lemma createJobRequirement_zero_budget :
  createJobRequirement Sample.writeFileSync
    (mkRequirementData (Some "Backend Engineer") (Some "Eng") (Some (num 0)) None
       (Num (num 2)) (Some 1)) (createDefaultSchema, tt) =
  (Thrown "Failed to create job requirement: Title, department, and budget are required",
   (createDefaultSchema, tt)).
Proof. reflexivity. Qed.

Lemma createJobRequirement_checks_witness :
  createJobRequirement Sample.writeFileSync
    (mkRequirementData (Some "Backend Engineer") (Some "Eng") (Some (num 100000)) None
       Null (Some 1)) (createDefaultSchema, tt) =
  (Thrown "Failed to create job requirement: Positions must be at least 1",
   (createDefaultSchema, tt)).
Proof.
  destruct (proj2 (createJobRequirement_checks Sample.writeFileSync
                     (mkRequirementData (Some "Backend Engineer") (Some "Eng")
                        (Some (num 100000)) None Null (Some 1))
                     createDefaultSchema tt)) as (msg & _ & H).
  - intros (_ & _ & _ & Hp). exact Hp.
  - reflexivity.
Defined.

Lemma rejectionReason_kept_witness :
  c_rejectionReason
    (updated_candidate "rejected" "other reason"
       (Sample.stored_candidate 1 "a@x.com" "rejected" (Some "no fit"))) = Some "no fit".
Proof.
  apply (proj2 (rejectionReason_kept Sample.writeFileSync 1 "rejected"
                  (Some "other reason") Sample.rejected tt)).
  reflexivity.
Defined.

(** The claim as stated fails: the candidate was rejected with 'no fit';
    a second rejection with the explicit reason 'other reason' throws, the
    candidate in the store keeps 'no fit', and the assignments of the
    function, made on that candidate, keep 'no fit' as well. *)
Lemma rejectionReason_not_replaced :
  updateCandidateStatus Sample.writeFileSync 1 "rejected" (Some "other reason")
    (Sample.rejected, tt) =
    (Thrown "Failed to update candidate status: Cannot read properties of undefined (reading 'candidates')",
     (Sample.rejected, tt)) ∧
  c_rejectionReason <$> candidates Sample.rejected !! 0%nat = Some (Some "no fit") ∧
  c_rejectionReason
    (updated_candidate "rejected" "other reason"
       (Sample.stored_candidate 1 "a@x.com" "rejected" (Some "no fit"))) = Some "no fit".
Proof. repeat split. Qed.


Lemma createJobPosting_never_returns_witness :
  Sample.stored_requirement ∈ jobRequirements Sample.opened ∧
  r_status Sample.stored_requirement = "approved" ∧
  createJobPosting Sample.writeFileSync Sample.posting (Sample.opened, tt) =
    (Thrown "Failed to create job posting: Cannot read properties of undefined (reading 'jobRequirements')",
     (Sample.opened, tt)).
Proof.
  split; [apply list_elem_of_here|]. split; [reflexivity|].
  apply (createJobPosting_never_returns Sample.writeFileSync Sample.posting
           Sample.opened tt).
Defined.

Lemma addInterview_explicit_zero_rating_witness :
  addInterview Sample.writeFileSync 1 (Sample.interview (Some (num 0))) "6f1c"
    (Sample.applied, tt) =
    (Thrown "Failed to add interview: Cannot read properties of undefined (reading 'candidates')",
     (Sample.applied, tt)).
Proof.
  apply (proj1 (proj2 (addInterview_explicit_zero_rating Sample.writeFileSync 1 "6f1c"
                         Sample.applied tt))).
Defined.

Lemma sendBulkStatusUpdate_all_fail_witness :
  sendBulkStatusUpdate Sample.writeFileSync Sample.sendMail Sample.env Sample.template
    Sample.template Sample.template [1%float; 99%float] "shortlisted" (Sample.applied, tt) =
    (Ok (mkBulkResults []
           [mkFailure 1 "Cannot read properties of undefined (reading 'candidates')";
            mkFailure 99 "Cannot read properties of undefined (reading 'candidates')"]),
     (Sample.applied, tt)).
Proof.
  apply (sendBulkStatusUpdate_all_fail Sample.writeFileSync Sample.sendMail Sample.env
           Sample.template Sample.template Sample.template [1%float; 99%float]
           "shortlisted" Sample.applied tt).
Defined.

Lemma getRecruitmentStats_never_returns_witness :
  getRecruitmentStats (Sample.one_selected, tt) =
    (Thrown "Failed to get recruitment stats: Cannot read properties of undefined (reading 'jobRequirements')",
     (Sample.one_selected, tt)) ∧
  getRecruitmentStats (createDefaultSchema, tt) =
    (Thrown "Failed to get recruitment stats: Cannot read properties of undefined (reading 'jobRequirements')",
     (createDefaultSchema, tt)).
Proof.
  split.
  - apply (getRecruitmentStats_never_returns Sample.one_selected tt).
  - apply (getRecruitmentStats_never_returns createDefaultSchema tt).
Defined.

(** * Further properties of the calls *)

Section MoreCalls.

Context {World : Type}.
Variable writeFileSync : Store → World → result unit * World.
Variable sendMail : MailOptions → World → result string * World.
Variable env : string → option string.
Variable t1 t2 t3 : option string → option string → string → string → Template.

(** ** db.js *)


(** ** createJobRequirement *)

(** X2: a call of [createJobRequirement] that passes the checks throws all
    the same, and not without a trace: the counter of [jobRequirements] has
    been advanced, while no requirement is stored, no other counter is
    changed and the file is not written. *)
Theorem createJobRequirement_spends_an_id (rd : RequirementData) (s : Store) (w : World) :
  requirement_valid rd →
  ∃ s', createJobRequirement writeFileSync rd (s, w) =
          (Thrown "Failed to create job requirement: Cannot read properties of undefined (reading 'jobRequirements')",
           (s', w)) ∧
    _id s' !! "jobRequirements" =
      Some (PrimFloat.add (or_zero (_id s !! "jobRequirements")) 1) ∧
    same_counters_but "jobRequirements" s s' ∧ same_collections s s'.
Proof.
  intros Hv. eexists. split; [apply createJobRequirement_valid; exact Hv|].
  simpl. split; [apply lookup_insert_eq|]. split.
  - intros other Hne. simpl. apply lookup_insert_ne. congruence.
  - repeat split.
Qed.

(** ** The operations that look a record up first *)

(** X3: [approveJobRequirement] and [rejectJobRequirement] never reach a
    requirement: whatever the id and the store, each throws the TypeError
    of reading [jobRequirements] of [db.data] under its own prefix, and the
    state is left as it was. *)
Theorem approval_never_returns (id : float) (approvedBy : option Z)
    (reason : option string) (s : Store) (w : World) :
  approveJobRequirement writeFileSync id approvedBy (s, w) =
    (Thrown "Failed to approve job requirement: Cannot read properties of undefined (reading 'jobRequirements')",
     (s, w)) ∧
  rejectJobRequirement writeFileSync id reason (s, w) =
    (Thrown "Failed to reject job requirement: Cannot read properties of undefined (reading 'jobRequirements')",
     (s, w)).
Proof. split; reflexivity. Qed.

Lemma updateCandidateStatus_invalid (id : float) (st : string) (notes : option string)
    (s : Store) (w : World) :
  includes validStatuses st = false →
  updateCandidateStatus writeFileSync id st notes (s, w) =
    (Thrown "Failed to update candidate status: Invalid status. Must be one of: applied, shortlisted, interviewed, selected, rejected",
     (s, w)).
Proof. unfold updateCandidateStatus. intros H. run_M. rewrite H. reflexivity. Qed.

Lemma updateCandidateStatus_unread (id : float) (st : string) (notes : option string)
    (s : Store) (w : World) :
  includes validStatuses st = true →
  updateCandidateStatus writeFileSync id st notes (s, w) =
    (Thrown "Failed to update candidate status: Cannot read properties of undefined (reading 'candidates')",
     (s, w)).
Proof. unfold updateCandidateStatus. intros H. run_M. rewrite H. reflexivity. Qed.

Lemma updateJobPostingStatus_invalid (id : float) (st : string) (s : Store) (w : World) :
  includes validPostingStatuses st = false →
  updateJobPostingStatus writeFileSync id st (s, w) =
    (Thrown "Failed to update job posting: Invalid status. Must be one of: open, closed, filled",
     (s, w)).
Proof. unfold updateJobPostingStatus. intros H. run_M. rewrite H. reflexivity. Qed.

Lemma updateJobPostingStatus_unread (id : float) (st : string) (s : Store) (w : World) :
  includes validPostingStatuses st = true →
  updateJobPostingStatus writeFileSync id st (s, w) =
    (Thrown "Failed to update job posting: Cannot read properties of undefined (reading 'jobPostings')",
     (s, w)).
Proof. unfold updateJobPostingStatus. intros H. run_M. rewrite H. reflexivity. Qed.

(** X4: the status checks come before the store is touched.
    [updateCandidateStatus] and [updateJobPostingStatus] refuse a status
    outside their list with the error that names the list; with a status
    of the list they throw the TypeError of reading the collection of
    [db.data]; in both cases the state is left as it was. *)
Theorem status_checks_come_first (id : float) (st : string) (notes : option string)
    (s : Store) (w : World) :
  updateCandidateStatus writeFileSync id st notes (s, w) =
    (Thrown ("Failed to update candidate status: " +:+
             (if includes validStatuses st then cannot_read "candidates"
              else "Invalid status. Must be one of: applied, shortlisted, interviewed, selected, rejected")),
     (s, w)) ∧
  updateJobPostingStatus writeFileSync id st (s, w) =
    (Thrown ("Failed to update job posting: " +:+
             (if includes validPostingStatuses st then cannot_read "jobPostings"
              else "Invalid status. Must be one of: open, closed, filled")),
     (s, w)).
Proof.
  split.
  - destruct (includes validStatuses st) eqn:H;
      [apply updateCandidateStatus_unread | apply updateCandidateStatus_invalid]; exact H.
  - destruct (includes validPostingStatuses st) eqn:H;
      [apply updateJobPostingStatus_unread | apply updateJobPostingStatus_invalid]; exact H.
Qed.

(** ** Sequences of calls *)

Lemma addInterview_throws (id : float) (nd : InterviewData) (uuid : string)
    (s : Store) (w : World) :
  ∃ msg, addInterview writeFileSync id nd uuid (s, w) = (Thrown msg, (s, w)).
Proof.
  unfold addInterview, getCandidateById. run_M.
  destruct (negb (truthy_str (nd_date nd)) || negb (truthy_str (nd_interviewer nd)));
    simpl; [eauto|].
  destruct (truthy_num (nd_rating nd) && _); simpl; eauto.
Qed.

Lemma updateJobPostingStatus_throws (id : float) (st : string) (s : Store) (w : World) :
  ∃ msg, updateJobPostingStatus writeFileSync id st (s, w) = (Thrown msg, (s, w)).
Proof.
  unfold updateJobPostingStatus. run_M.
  destruct (includes validPostingStatuses st); simpl; eauto.
Qed.

Lemma createJobRequirement_frame (rd : RequirementData) (s : Store) (w : World) :
  ∃ msg s', createJobRequirement writeFileSync rd (s, w) = (Thrown msg, (s', w)) ∧
            same_collections s s'.
Proof.
  destruct (requirement_valid_dec rd) as [Hv|Hv].
  - eexists _, _. split; [apply createJobRequirement_valid; exact Hv | repeat split].
  - destruct (createJobRequirement_invalid writeFileSync rd s w Hv) as (msg & _ & E).
    eexists _, _. split; [exact E | repeat split].
Qed.

Lemma step_frame (st st' : Store * World) :
  step writeFileSync st st' → same_collections st.1 st'.1 ∧ st'.2 = st.2.
Proof.
  assert (Hsame : ∀ A (call : M (Store * World) A) s w (r : result A) after,
            (∃ msg, call (s, w) = (Thrown msg, (s, w))) → call (s, w) = (r, after) →
            same_collections s after.1 ∧ after.2 = w).
  { intros A call s w r after [msg E'] E. rewrite E' in E. injection E as _ <-.
    split; [repeat split | reflexivity]. }
  destruct st as [s w]. intros H. inversion H as
    [rd ? r ? E | id by_ ? r ? E | id reason ? r ? E | pd ? r ? E | id status ? r ? E
    | a ? r ? E | id status notes ? r ? E | id nd uuid ? r ? E | ? r ? E]; subst; simpl.
  - destruct (createJobRequirement_frame rd s w) as (msg & s' & E' & Hs).
    rewrite E' in E. injection E as _ <-. split; [exact Hs | reflexivity].
  - eapply Hsame; [|exact E]. eexists. reflexivity.
  - eapply Hsame; [|exact E]. eexists. reflexivity.
  - eapply Hsame; [|exact E]. eexists. reflexivity.
  - eapply Hsame; [|exact E]. apply updateJobPostingStatus_throws.
  - eapply Hsame; [|exact E]. apply applyForJob_throws.
  - eapply Hsame; [|exact E]. apply updateCandidateStatus_throws.
  - eapply Hsame; [|exact E]. apply addInterview_throws.
  - eapply Hsame; [|exact E]. eexists. reflexivity.
Qed.

(** X5: no call of the recruitment module ever stores anything.  After
    any number of calls of its operations, one after the other, the five
    collections hold what they held before the first, and the file has
    not been written. *)
Theorem recruitment_never_stores (st st' : Store * World) :
  steps writeFileSync st st' → same_collections st.1 st'.1 ∧ st'.2 = st.2.
Proof.
  induction 1 as [st|st st1 st2 _ [IH1 IH2] Hstep].
  - split; [repeat split | reflexivity].
  - destruct (step_frame st1 st2 Hstep) as [H1 H2]. split; [|congruence].
    destruct IH1 as (A1 & A2 & A3 & A4 & A5), H1 as (B1 & B2 & B3 & B4 & B5).
    repeat split; congruence.
Qed.

(** ** Notifications *)

(** X6: a notification hands its message to the transport and then
    throws all the same.  Whether the transport accepts the message or
    fails, [sendShortlistedNotification], [sendSelectedNotification] and
    [sendRejectionNotification] throw the TypeError of reading [emailLogs]
    of [db.data], which replaces the transport's own error; nothing is
    logged, and the store is left as it was. *)
Theorem notification_sends_then_throws (c : Candidate) (p : JobPosting)
    (text : option string) (s : Store) (w : World) :
  sendShortlistedNotification writeFileSync sendMail env t1 c p text (s, w) =
    (Thrown "Cannot read properties of undefined (reading 'emailLogs')",
     (s, (sendMail (notification_mail env t1 c p text) w).2)) ∧
  sendSelectedNotification writeFileSync sendMail env t2 c p text (s, w) =
    (Thrown "Cannot read properties of undefined (reading 'emailLogs')",
     (s, (sendMail (notification_mail env t2 c p text) w).2)) ∧
  sendRejectionNotification writeFileSync sendMail env t3 c p text (s, w) =
    (Thrown "Cannot read properties of undefined (reading 'emailLogs')",
     (s, (sendMail (notification_mail env t3 c p text) w).2)).
Proof.
  unfold sendShortlistedNotification, sendSelectedNotification, sendRejectionNotification,
    notify, transport, logEmailSent, logEmailError, notification_mail.
  run_M. repeat split;
    match goal with
    | |- context [sendMail ?m w] => destruct (sendMail m w) as [[messageId|error] w']
    end; reflexivity.
Qed.

(** ** Queries and logs *)

(** X7: no query returns.  [getJobRequirements], [getJobPostings],
    [getCandidates] and [getCandidatesByPosting] throw the TypeError of
    reading their collection of [db.data] under their prefixes (both
    prefixes for [getCandidatesByPosting], which calls [getCandidates]), and
    [getJobPostingById], which has no [try], throws it bare; the state is
    left as it was. *)
Theorem queries_never_return (rf : RequirementFilters) (pf : PostingFilters)
    (cf : CandidateFilters) (id : float) (s : Store) (w : World) :
  getJobRequirements rf (s, w) =
    (Thrown "Failed to get job requirements: Cannot read properties of undefined (reading 'jobRequirements')",
     (s, w)) ∧
  getJobPostings pf (s, w) =
    (Thrown "Failed to get job postings: Cannot read properties of undefined (reading 'jobPostings')",
     (s, w)) ∧
  getCandidates cf (s, w) =
    (Thrown "Failed to get candidates: Cannot read properties of undefined (reading 'candidates')",
     (s, w)) ∧
  getCandidatesByPosting id (s, w) =
    (Thrown "Failed to get candidates by posting: Failed to get candidates: Cannot read properties of undefined (reading 'candidates')",
     (s, w)) ∧
  getJobPostingById (Some id) (s, w) =
    (Thrown "Cannot read properties of undefined (reading 'jobPostings')", (s, w)).
Proof. repeat split. Qed.

(** X8: nothing is ever logged, and no id is spent on a log row.
    [logStatusChange], [logEmailSent] and [logEmailError] throw at the
    guard on their collection, before [nextId] is called, and
    [getEmailLogs] throws as well; the state, counters included, is left
    as it was. *)
Theorem logs_are_never_written (id : float) (old new emailType text : string)
    (recipient : option string) (s : Store) (w : World) :
  logStatusChange writeFileSync id old new (s, w) =
    (Thrown "Cannot read properties of undefined (reading 'statusChangeLogs')", (s, w)) ∧
  logEmailSent writeFileSync id emailType text recipient (s, w) =
    (Thrown "Cannot read properties of undefined (reading 'emailLogs')", (s, w)) ∧
  logEmailError writeFileSync id emailType text (s, w) =
    (Thrown "Cannot read properties of undefined (reading 'emailLogs')", (s, w)) ∧
  getEmailLogs id (s, w) =
    (Thrown "Cannot read properties of undefined (reading 'emailLogs')", (s, w)).
Proof. repeat split. Qed.

(** ** Routes *)

(** X9: PUT /candidates/:id/status never answers 200.  Whatever the id,
    the status and the notes, the handler answers 400 with the message that
    [updateCandidateStatus] threw; no notification is attempted and the
    state is left as it was. *)
Theorem putCandidateStatus_answers_400 (id : float) (st : string)
    (notes : option string) (s : Store) (w : World) :
  putCandidateStatus writeFileSync sendMail env t1 t2 t3 id st notes (s, w) =
    (Ok (RespondError 400
           ("Failed to update candidate status: " +:+
            (if includes validStatuses st then cannot_read "candidates"
             else "Invalid status. Must be one of: applied, shortlisted, interviewed, selected, rejected"))),
     (s, w)).
Proof.
  unfold putCandidateStatus, handle, try_catch, mbind, M_bind.
  destruct (includes validStatuses st) eqn:H.
  - rewrite (updateCandidateStatus_unread id st notes s w H). reflexivity.
  - rewrite (updateCandidateStatus_invalid id st notes s w H). reflexivity.
Qed.

Lemma bulk_update_loop_with (st reason : string) (ids : list float) :
  (∀ id s w, updateCandidateStatus writeFileSync id st None (s, w) =
             (Thrown reason, (s, w))) →
  ∀ results s w,
    bulk_update_loop writeFileSync st ids results (s, w) =
      (Ok (mkBulkResults (success results)
             (failed results ++ ((λ id, mkFailure id reason) <$> ids))),
       (s, w)).
Proof.
  intros Hthrow. induction ids as [|id ids IH]; intros results s w; simpl.
  - rewrite app_nil_r. destruct results. reflexivity.
  - unfold mbind at 1, M_bind at 1, try_catch, mbind, M_bind.
    rewrite Hthrow. simpl. unfold mret, M_ret. rewrite IH. simpl.
    rewrite <- app_assoc. reflexivity.
Qed.

Lemma bulk_update_loop_fails (st : string) (ids : list float) (s : Store) (w : World) :
  bulk_update_loop writeFileSync st ids (mkBulkResults [] []) (s, w) =
    (Ok (all_failed ids
           ("Failed to update candidate status: " +:+
            (if includes validStatuses st then cannot_read "candidates"
             else "Invalid status. Must be one of: applied, shortlisted, interviewed, selected, rejected"))),
     (s, w)).
Proof.
  destruct (includes validStatuses st) eqn:H.
  - rewrite (bulk_update_loop_with st _ ids
               (λ id s0 w0, updateCandidateStatus_unread id st None s0 w0 H)).
    reflexivity.
  - rewrite (bulk_update_loop_with st _ ids
               (λ id s0 w0, updateCandidateStatus_invalid id st None s0 w0 H)).
    reflexivity.
Qed.

(** X10: POST /bulk-update reports completion with every id failed.  For
    a list of ids that is not empty the handler answers 200 with the
    message 'Bulk update completed', no id under [success] and every id
    under [failed] with the message that [updateCandidateStatus] threw; no
    notification is attempted and the state is left as it was.  Without a
    list, or with an empty one, it answers 400. *)
Theorem postBulkUpdate_completes_with_failures (ids : option (list float)) (st : string)
    (s : Store) (w : World) :
  postBulkUpdate writeFileSync sendMail env t1 t2 t3 ids st (s, w) =
    (Ok match ids with
        | None | Some [] => RespondError 400 "Candidate IDs array is required"
        | Some ids =>
            Respond 200
              (mkBulkUpdated "Bulk update completed"
                 (all_failed ids
                    ("Failed to update candidate status: " +:+
                     (if includes validStatuses st then cannot_read "candidates"
                      else "Invalid status. Must be one of: applied, shortlisted, interviewed, selected, rejected"))))
        end,
     (s, w)).
Proof.
  destruct ids as [[|id ids]|]; try reflexivity.
  unfold postBulkUpdate, handle, try_catch, mbind, M_bind.
  rewrite bulk_update_loop_fails. reflexivity.
Qed.

End MoreCalls.

Lemma createJobRequirement_spends_an_id_witness :
  ∃ s', createJobRequirement Sample.writeFileSync Sample.requirement
          (createDefaultSchema, tt) =
          (Thrown "Failed to create job requirement: Cannot read properties of undefined (reading 'jobRequirements')",
           (s', tt)) ∧
    _id s' !! "jobRequirements" = Some 1%float ∧ jobRequirements s' = [].
Proof.
  destruct (createJobRequirement_spends_an_id Sample.writeFileSync Sample.requirement
              createDefaultSchema tt) as (s' & Hrun & Hid & _ & Hsame & _).
  - repeat split; try reflexivity. vm_compute. discriminate.
  - exists s'. split; [exact Hrun|]. split; [exact Hid | exact Hsame].
Defined.

Lemma recruitment_never_stores_witness :
  candidates
    (applyForJob Sample.writeFileSync (Sample.application "a@x.com")
       (createJobRequirement Sample.writeFileSync Sample.requirement
          (Sample.opened, tt)).2).2.1 = [].
Proof.
  refine (proj1 (proj2 (proj2 (proj1
    (recruitment_never_stores Sample.writeFileSync (Sample.opened, tt) _ _))))).
  eapply steps_more; [eapply steps_more; [apply steps_none|]|].
  - eapply step_createJobRequirement. apply surjective_pairing.
  - eapply step_applyForJob. apply surjective_pairing.
Defined.

